(** * LiveDebugger: a shallow embedding of the capture pipeline

    The object [LiveDebugger] of the browser script (the second copy, the one
    with [addLog], in src/unnamed/part_001) is modelled as an explicit state
    record; methods become functions on that state, and a JavaScript
    exception becomes an [Err] of the small result monad below. *)

From Stdlib Require Import String Ascii ZArith List Bool Lia.
Set Warnings "-register-all".
Import ListNotations.
Open Scope string_scope.
Open Scope Z_scope.

(** ** JavaScript values *)

(** The values the buffer can hold.  Numbers are integers, plus [NaN], which
    is enough for what JSON does to them; an object is its list of
    (distinct) keys with their values, in insertion order. *)
Inductive jsval : Type :=
| JUndef
| JNull
| JBool (b : bool)
| JNum (n : Z)
| JNaN
| JStr (s : string)
| JArr (l : list jsval)
| JObj (fs : list (string * jsval))
| JFun.

(** A nested induction principle for [jsval]. *)
Section jsval_ind'.
Variable P : jsval -> Prop.
Hypothesis HUndef : P JUndef.
Hypothesis HNull : P JNull.
Hypothesis HBool : forall b, P (JBool b).
Hypothesis HNum : forall n, P (JNum n).
Hypothesis HNaN : P JNaN.
Hypothesis HStr : forall s, P (JStr s).
Hypothesis HArr : forall l, Forall P l -> P (JArr l).
Hypothesis HObj : forall fs, Forall (fun kv => P (snd kv)) fs -> P (JObj fs).
Hypothesis HFun : P JFun.

Fixpoint jsval_ind' (v : jsval) : P v :=
    match v with
    | JUndef => HUndef
    | JNull => HNull
    | JBool b => HBool b
    | JNum n => HNum n
    | JNaN => HNaN
    | JStr s => HStr s
    | JArr l =>
        HArr l
          ((fix go (l : list jsval) : Forall P l :=
              match l with
              | [] => Forall_nil _
              | x :: r => @Forall_cons _ P x r (jsval_ind' x) (go r)
              end) l)
    | JObj fs =>
        HObj fs
          ((fix go (fs : list (string * jsval))
               : Forall (fun kv => P (snd kv)) fs :=
              match fs with
              | [] => Forall_nil _
              | (k, x) :: r =>
                  @Forall_cons _ (fun kv => P (snd kv)) (k, x) r
                    (jsval_ind' x) (go r)
              end) fs)
    | JFun => HFun
    end.
End jsval_ind'.

(** ** JSON

    The text kept in [localStorage] is represented by the JSON document it
    denotes.  [JSON_stringify] follows ECMA-262 SerializeJSONProperty:
    [undefined] and functions give no text at all, become [null] inside an
    array and are left out of an object; [NaN] is written [null]. *)
Inductive json : Type :=
| Jnull
| Jbool (b : bool)
| Jnum (n : Z)
| Jstr (s : string)
| Jarr (l : list json)
| Jobj (fs : list (string * json)).

Fixpoint JSON_stringify (v : jsval) : option json :=
  match v with
  | JUndef | JFun => None
  | JNull | JNaN => Some Jnull
  | JBool b => Some (Jbool b)
  | JNum n => Some (Jnum n)
  | JStr s => Some (Jstr s)
  | JArr l =>
      Some (Jarr
        ((fix elems (l : list jsval) : list json :=
            match l with
            | [] => []
            | x :: r =>
                match JSON_stringify x with
                | Some j => j
                | None => Jnull
                end :: elems r
            end) l))
  | JObj fs =>
      Some (Jobj
        ((fix members (fs : list (string * jsval)) : list (string * json) :=
            match fs with
            | [] => []
            | (k, x) :: r =>
                match JSON_stringify x with
                | Some j => (k, j) :: members r
                | None => members r
                end
            end) fs))
  end.

(** [JSON.parse] of a well-formed text: the document read back as a value. *)
Fixpoint JSON_parse (j : json) : jsval :=
  match j with
  | Jnull => JNull
  | Jbool b => JBool b
  | Jnum n => JNum n
  | Jstr s => JStr s
  | Jarr l => JArr (map JSON_parse l)
  | Jobj fs => JObj (map (fun kv => (fst kv, JSON_parse (snd kv))) fs)
  end.

(** A value that JSON writes without loss: no [undefined], function or
    [NaN] anywhere inside it. *)
Fixpoint json_safe (v : jsval) : bool :=
  match v with
  | JUndef | JFun | JNaN => false
  | JNull | JBool _ | JNum _ | JStr _ => true
  | JArr l => forallb json_safe l
  | JObj fs => forallb (fun kv => json_safe (snd kv)) fs
  end.

(** ** Strings *)

(** [s.startsWith(p)]. *)
Fixpoint startsWith (s p : string) : bool :=
  match p, s with
  | EmptyString, _ => true
  | String c p', String d s' => Ascii.eqb c d && startsWith s' p'
  | String _ _, EmptyString => false
  end.

(** Lower-casing of the letters A-Z.  On characters 0-255 this is what
    [toLowerCase] and the case folding of a non-unicode [/i] regular
    expression decide when the result is compared with ASCII text: no other
    character of that range folds onto an ASCII letter. *)
Definition ascii_lower (c : ascii) : ascii :=
  let n := nat_of_ascii c in
  if (65 <=? n)%nat && (n <=? 90)%nat then ascii_of_nat (n + 32) else c.

Fixpoint toLowerCase (s : string) : string :=
  match s with
  | EmptyString => EmptyString
  | String c r => String (ascii_lower c) (toLowerCase r)
  end.

(** [a || b] on two strings: the empty string is falsy. *)
Definition js_or (a b : string) : string :=
  if String.eqb a "" then b else a.

(** The double quote character. *)
Definition dq : string := String (ascii_of_nat 34) EmptyString.

(** ** Colours used by the listeners *)
Module colors.
Definition INIT := "#868DED".
Definition INPUT := "#ffffff".
Definition FETCH := "#ffffff".
Definition ERROR := "#D67008".
Definition INFO := "#8FC22A".
End colors.

(** ** Masking in the input listener of [setupListeners] *)
Module Masking.

  (** [/password|secret|token|key|auth|credential|ssn|credit|card/i] *)
Definition sensitivePatterns : list string :=
    ["password"; "secret"; "token"; "key"; "auth"; "credential"; "ssn";
     "credit"; "card"].

  (** One alternative of the pattern matches at the start of [s]. *)
Definition matches_here (s : string) : bool :=
    existsb (fun p => startsWith (toLowerCase s) p) sensitivePatterns.

  (** [sensitivePatterns.test(s)]: the unanchored search tries every
      position. *)
Fixpoint test (s : string) : bool :=
    matches_here s ||
    match s with
    | EmptyString => false
    | String _ r => test r
    end.

  (** The [input]/[textarea] element an [input] event comes from. *)
Record target := mkTarget {
    in_panel : bool;   (* e.target.closest('#live-debug-panel') *)
    tagName : string;
    id : string;
    name : string;
    type : string;
    value : string
  }.

Definition fieldIdentifier (t : target) : string :=
    js_or (id t) (js_or (name t) "unnamed").

Definition inputType (t : target) : string := js_or (type t) "text".

Definition isSensitive (t : target) : bool :=
    test (fieldIdentifier t) || String.eqb (inputType t) "password".

Definition masked_value (t : target) : string :=
    if isSensitive t then "[MASKED]" else substring 0 50 (value t).

  (** The arguments the listener passes to [addLog], if any. *)
Definition input_handler (t : target) : option (string * string * string) :=
    if in_panel t then None
    else if String.eqb (toLowerCase (tagName t)) "input"
            || String.eqb (toLowerCase (tagName t)) "textarea"
    then Some ("INPUT", fieldIdentifier t ++ " = " ++ dq ++ masked_value t ++ dq,
               colors.INPUT)
    else None.

End Masking.

(** ** Results: a JavaScript exception is an [Err] *)
Inductive result (A : Type) : Type :=
| Ok (a : A)
| Err (e : string).
Arguments Ok {A} a.
Arguments Err {A} e.

Definition bind {A B} (m : result A) (k : A -> result B) : result B :=
  match m with
  | Ok a => k a
  | Err e => Err e
  end.

Notation "'let*' x ':=' m 'in' k" := (bind m (fun x => k))
  (at level 200, x name, m at level 100, k at level 200).

(** ** Configuration: [LiveDebugger.config] *)
Module Config.
Record t := mk {
    enabled : bool;
    maxEntries : Z;
    persistLogs : bool;
    sendToServer : bool;
    serverEndpoint : string
  }.

  (** The object literal of the source ([enabled] comes from
      [localStorage.getItem('live-debugger-enabled') === 'true']). *)
Definition default (stored_enabled : bool) : t :=
    mk stored_enabled 100 false false "/api/debug-logs".

  (** The options passed to [init]: a key is present or not. *)
Record options := mkOptions {
    o_enabled : option bool;
    o_maxEntries : option Z;
    o_persistLogs : option bool;
    o_sendToServer : option bool;
    o_serverEndpoint : option string
  }.

Definition no_options : options := mkOptions None None None None None.

Definition pick {A} (o : option A) (d : A) : A :=
    match o with Some a => a | None => d end.

  (** [Object.assign(this.config, options)] *)
Definition assign (c : t) (o : options) : t :=
    mk (pick (o_enabled o) (enabled c))
       (pick (o_maxEntries o) (maxEntries c))
       (pick (o_persistLogs o) (persistLogs c))
       (pick (o_sendToServer o) (sendToServer c))
       (pick (o_serverEndpoint o) (serverEndpoint c)).
End Config.

(** ** The debugger's state *)

(** The item ['live-debugger-logs'] of [localStorage]: a text that is a
    well-formed JSON document, or some other text. *)
Inductive stored : Type :=
| LSJson (j : json)
| LSText (s : string).

Record state := mkState {
  config : Config.t;
  entries : jsval;                 (* this.entries *)
  sessionId : string;              (* Date.now().toString(36) *)
  now : string;                    (* new Date().toISOString() *)
  origin : string;                 (* window.location.origin *)
  storage_logs : option stored;    (* localStorage 'live-debugger-logs' *)
  fetch_wraps : nat;               (* wrappers installed around window.fetch *)
  xhr_wraps : nat;                 (* wrappers around XMLHttpRequest open/send *)
  listener_sets : nat;             (* document/window listener sets installed *)
  panels : nat;                    (* #live-debug-panel elements injected *)
  printed : list string;           (* console.log output *)
  diagnostics : list string;       (* console.warn / console.error output *)
  requests : list (string * json)  (* POST requests issued: endpoint, body *)
}.

Definition set_config (st : state) (c : Config.t) : state :=
  mkState c (entries st) (sessionId st) (now st) (origin st) (storage_logs st)
    (fetch_wraps st) (xhr_wraps st) (listener_sets st) (panels st)
    (printed st) (diagnostics st) (requests st).

Definition set_entries (st : state) (v : jsval) : state :=
  mkState (config st) v (sessionId st) (now st) (origin st) (storage_logs st)
    (fetch_wraps st) (xhr_wraps st) (listener_sets st) (panels st)
    (printed st) (diagnostics st) (requests st).

Definition set_storage_logs (st : state) (s : option stored) : state :=
  mkState (config st) (entries st) (sessionId st) (now st) (origin st) s
    (fetch_wraps st) (xhr_wraps st) (listener_sets st) (panels st)
    (printed st) (diagnostics st) (requests st).

Definition console_log (st : state) (line : string) : state :=
  mkState (config st) (entries st) (sessionId st) (now st) (origin st)
    (storage_logs st) (fetch_wraps st) (xhr_wraps st) (listener_sets st)
    (panels st) (printed st ++ [line])%list (diagnostics st) (requests st).

Definition console_diag (st : state) (line : string) : state :=
  mkState (config st) (entries st) (sessionId st) (now st) (origin st)
    (storage_logs st) (fetch_wraps st) (xhr_wraps st) (listener_sets st)
    (panels st) (printed st) (diagnostics st ++ [line])%list (requests st).

Definition post (st : state) (endpoint : string) (body : json) : state :=
  mkState (config st) (entries st) (sessionId st) (now st) (origin st)
    (storage_logs st) (fetch_wraps st) (xhr_wraps st) (listener_sets st)
    (panels st) (printed st) (diagnostics st) (requests st ++ [(endpoint, body)])%list.

(** [injectHTML]: one more panel in the page. *)
Definition injectHTML (st : state) : state :=
  mkState (config st) (entries st) (sessionId st) (now st) (origin st)
    (storage_logs st) (fetch_wraps st) (xhr_wraps st) (listener_sets st)
    (S (panels st)) (printed st) (diagnostics st) (requests st).

(** [setupListeners]: adds the document and window listeners and wraps
    [window.fetch] ([interceptFetch]) and [XMLHttpRequest] ([interceptXHR])
    once more, around whatever they are at that time. *)
Definition setupListeners (st : state) : state :=
  mkState (config st) (entries st) (sessionId st) (now st) (origin st)
    (storage_logs st) (S (fetch_wraps st)) (S (xhr_wraps st))
    (S (listener_sets st)) (panels st) (printed st) (diagnostics st)
    (requests st).

(** ** The bounded buffer *)

(** [this.entries.push(entry); if (this.entries.length > maxEntries)
    this.entries.shift();] *)
Definition push_limit (maxEntries : Z) (l : list jsval) (entry : jsval)
  : list jsval :=
  let l1 := (l ++ [entry])%list in
  if Z.of_nat (length l1) >? maxEntries then tl l1 else l1.

(** The record [addLog] builds. *)
Definition mk_entry (st : state) (type message color : string) (details : jsval)
  : jsval :=
  JObj [("timestamp", JStr (now st)); ("sessionId", JStr (sessionId st));
        ("type", JStr type); ("message", JStr message); ("color", JStr color);
        ("details", details)].

(** [persistLogs]: [localStorage.setItem('live-debugger-logs',
    JSON.stringify(this.entries))]. *)
Definition persisted (v : jsval) : option stored :=
  match JSON_stringify v with
  | Some j => Some (LSJson j)
  | None => None
  end.

Definition persistLogs (st : state) : state :=
  set_storage_logs st (persisted (entries st)).

(** [sendToServer(entry)]; the request is recorded as issued. *)
Definition sendToServer (st : state) (entry : jsval) : state :=
  let endpoint := Config.serverEndpoint (config st) in
  if String.eqb endpoint "" then st
  else
    let isRelative := startsWith endpoint "/" in
    let isSameOrigin := startsWith endpoint (origin st) in
    if negb isRelative && negb isSameOrigin then
      console_diag st "[LiveDebugger] Blocked cross-origin server endpoint for security"
    else
      post st endpoint
        (match JSON_stringify entry with Some j => j | None => Jnull end).

(** [addLog(type, message, color, details = null)]; the DOM rendering is
    left out.  [push] on anything but an array throws a [TypeError]. *)
Definition addLog (st : state) (type message color : string) (details : jsval)
  : result state :=
  let details := match details with JUndef => JNull | d => d end in
  let entry := mk_entry st type message color details in
  match entries st with
  | JArr l =>
      let st1 := set_entries st (JArr (push_limit (Config.maxEntries (config st)) l entry)) in
      let st2 := if Config.persistLogs (config st1) then persistLogs st1 else st1 in
      let st3 := if Config.sendToServer (config st2) then sendToServer st2 entry else st2 in
      Ok (console_log st3 ("[" ++ type ++ "] " ++ message))
  | _ => Err "TypeError: this.entries.push is not a function"
  end.

(** A sequence of [addLog] calls. *)
Fixpoint addLogs (st : state) (calls : list (string * string * string * jsval))
  : result state :=
  match calls with
  | [] => Ok st
  | (t, m, c, d) :: rest =>
      let* st1 := addLog st t m c d in
      addLogs st1 rest
  end.

Definition is_null (v : jsval) : bool :=
  match v with JNull => true | _ => false end.

(** [restoreLogs]: the parsed value is assigned to [this.entries] before
    [forEach] runs; every exception is caught and reported.  In the
    [forEach], reading [entry.timestamp] throws on a [null] element. *)
Definition restoreLogs (st : state) : state :=
  let fail st := console_diag st "Failed to restore logs:" in
  match storage_logs st with
  | None => st
  | Some (LSText s) => if String.eqb s "" then st else fail st
  | Some (LSJson j) =>
      let st1 := set_entries st (JSON_parse j) in
      match entries st1 with
      | JArr l => if existsb is_null l then fail st1 else st1
      | _ => fail st1
      end
  end.

(** [init(options)] *)
Definition init (opts : Config.options) (st : state) : result state :=
  let st1 := set_config st (Config.assign (config st) opts) in
  let st2 := injectHTML st1 in
  let st3 := setupListeners st2 in
  let st4 := if Config.persistLogs (config st3) then restoreLogs st3 else st3 in
  addLog st4 "INIT"
    ("Live Debugger v1.0.0 initialized (session: " ++ sessionId st4 ++ ")")
    colors.INIT JNull.

(** The click listener of the Clear button. *)
Definition clear_handler (st : state) : result state :=
  addLog (set_entries st (JArr [])) "CLEAR" "Debug log cleared" colors.INFO JNull.

(** The input listener: [addLog] with what [input_handler] computes. *)
Definition input_listener (st : state) (t : Masking.target) : result state :=
  match Masking.input_handler t with
  | Some (type, message, color) => addLog st type message color JNull
  | None => Ok st
  end.

(** ** The fetch wrapper of [interceptFetch] *)

(** Decimal text of an integer, as a template literal writes it. *)
Fixpoint digits (fuel : nat) (n : Z) (acc : string) : string :=
  match fuel with
  | O => acc
  | S f =>
      let acc' := String (ascii_of_nat (48 + Z.to_nat (n mod 10))) acc in
      if n <? 10 then acc' else digits f (n / 10) acc'
  end.

Definition string_of_Z (z : Z) : string :=
  let s := digits (S (Z.to_nat (Z.log2 (Z.abs z)))) (Z.abs z) "" in
  if z <? 0 then "-" ++ s else s.

(** How the underlying network request settles. *)
Inductive fetch_outcome : Type :=
| Resolved (status : Z)
| Rejected (message : string).

(** [response.ok] *)
Definition response_ok (status : Z) : bool := (200 <=? status) && (status <? 300).

(** A call [window.fetch(url)] when [n] wrappers are stacked on the
    browser's fetch.  A wrapper logs [>> url] before calling the function
    it wrapped; its [.then] (or [.catch]) runs after the inner one, since it
    is chained on the promise the inner one returned. *)
Fixpoint fetch_wrapped (n : nat) (url : string) (o : fetch_outcome) (st : state)
  : result state :=
  match n with
  | O => Ok st
  | S n' =>
      let* st1 := addLog st "FETCH" (">> " ++ url) colors.FETCH JNull in
      let* st2 := fetch_wrapped n' url o st1 in
      match o with
      | Resolved status =>
          addLog st2 "FETCH" ("<< " ++ string_of_Z status ++ " " ++ url)
            (if response_ok status then colors.INFO else colors.ERROR) JNull
      | Rejected msg =>
          addLog st2 "ERROR" ("Fetch error: " ++ msg) colors.ERROR JNull
      end
  end.

Definition window_fetch (st : state) (url : string) (o : fetch_outcome)
  : result state :=
  fetch_wrapped (fetch_wraps st) url o st.

(** ** URL origins *)

Fixpoint until_slash (s : string) : string :=
  match s with
  | EmptyString => EmptyString
  | String c r => if Ascii.eqb c "/"%char then EmptyString else String c (until_slash r)
  end.

(** The origin of an absolute http(s) URL of the form
    [scheme://host[:port]/path] (no user info): scheme and authority. *)
Definition url_origin (url : string) : option string :=
  if startsWith url "https://" then
    Some ("https://" ++ until_slash (substring 8 (String.length url) url))
  else if startsWith url "http://" then
    Some ("http://" ++ until_slash (substring 7 (String.length url) url))
  else None.

(** ** A page before [init] *)
Definition page (origin : string) (logs : option stored) : state :=
  mkState (Config.default false) (JArr []) "lz3k9q" "2026-10-17T09:00:00.000Z"
    origin logs 0 0 0 0 [] [] [].

(** * Properties *)

(** ** Strings and the sensitive-field test *)

Lemma toLowerCase_app : forall a b,
  toLowerCase (a ++ b) = toLowerCase a ++ toLowerCase b.
Proof. induction a as [|c a IH]; intros b; simpl; [reflexivity | now rewrite IH]. Qed.

Lemma startsWith_app : forall p q, startsWith (p ++ q) p = true.
Proof.
  induction p as [|c p IH]; intros q; simpl; [now destruct q |].
  now rewrite Ascii.eqb_refl, IH.
Qed.

Lemma test_suffix : forall pre s, Masking.test s = true -> Masking.test (pre ++ s) = true.
Proof.
  induction pre as [|c pre IH]; intros s H; simpl; [exact H |].
  apply orb_true_iff; right; now apply IH.
Qed.

Lemma test_here : forall s, Masking.matches_here s = true -> Masking.test s = true.
Proof. intros s H; destruct s; cbn [Masking.test]; now rewrite H. Qed.

Lemma test_contains : forall pre w post word,
  In word Masking.sensitivePatterns -> toLowerCase w = word ->
  Masking.test (pre ++ w ++ post) = true.
Proof.
  intros pre w post word Hin Hw; apply test_suffix, test_here.
  unfold Masking.matches_here; apply existsb_exists; exists word;
    split; [exact Hin |]; rewrite toLowerCase_app, Hw; apply startsWith_app.
Qed.

Lemma input_listener_masked : forall st t,
  Masking.in_panel t = false ->
  String.eqb (toLowerCase (Masking.tagName t)) "input"
    || String.eqb (toLowerCase (Masking.tagName t)) "textarea" = true ->
  Masking.isSensitive t = true ->
  input_listener st t =
    addLog st "INPUT" (Masking.fieldIdentifier t ++ " = " ++ dq ++ "[MASKED]" ++ dq)
      colors.INPUT JNull.
Proof.
  intros st t Hp Htag Hs.
  unfold input_listener, Masking.input_handler, Masking.masked_value.
  now rewrite Hp, Htag, Hs.
Qed.

(** C1: the input listener, on an [input] or [textarea] outside the panel
    whose [type] is ["password"] or whose field identifier ([id], else
    [name], else ["unnamed"]) passes the case-insensitive test
    [/password|secret|token|key|auth|credential|ssn|credit|card/i], logs the
    INPUT record [id = "[MASKED]"]: the recorded value is the redaction
    token, whatever the raw value is. *)
Theorem input_password_or_pattern_masked : forall st t,
  Masking.in_panel t = false ->
  String.eqb (toLowerCase (Masking.tagName t)) "input"
    || String.eqb (toLowerCase (Masking.tagName t)) "textarea" = true ->
  Masking.type t = "password" \/ Masking.test (Masking.fieldIdentifier t) = true ->
  input_listener st t =
    addLog st "INPUT" (Masking.fieldIdentifier t ++ " = " ++ dq ++ "[MASKED]" ++ dq)
      colors.INPUT JNull.
Proof.
  intros st t Hp Htag Hs; apply input_listener_masked; try assumption.
  unfold Masking.isSensitive, Masking.inputType, js_or.
  destruct Hs as [Ht | Ht].
  - rewrite Ht; simpl; apply orb_true_r.
  - now rewrite Ht.
Qed.

(** The scenario of the spec: field id ["password"], raw value
    ["hunter2"]: the record logged reads [password = "[MASKED]"]. *)
Lemma input_password_or_pattern_masked_witness :
  let t := Masking.mkTarget false "INPUT" "password" "" "text" "hunter2" in
  Masking.in_panel t = false /\
  String.eqb (toLowerCase (Masking.tagName t)) "input"
    || String.eqb (toLowerCase (Masking.tagName t)) "textarea" = true /\
  (Masking.type t = "password" \/ Masking.test (Masking.fieldIdentifier t) = true) /\
  input_listener (page "https://example.com" None) t =
    addLog (page "https://example.com" None) "INPUT"
      ("password = " ++ dq ++ "[MASKED]" ++ dq) colors.INPUT JNull.
Proof.
  intros t; split; [reflexivity | split; [reflexivity | split]].
  - right; vm_compute; reflexivity.
  - apply (input_password_or_pattern_masked (page "https://example.com" None) t);
      [reflexivity | reflexivity | right; vm_compute; reflexivity].
Defined.

(** C10: the test looks for the sensitive words anywhere in the field
    identifier, case-insensitively: an identifier [pre ++ w ++ post] where
    [w] lower-cases to one of the words (["monkey"] contains ["key"]) is
    masked, whatever the field's [type]. *)
Theorem input_mask_matches_substring : forall st t pre w post word,
  Masking.in_panel t = false ->
  String.eqb (toLowerCase (Masking.tagName t)) "input"
    || String.eqb (toLowerCase (Masking.tagName t)) "textarea" = true ->
  In word Masking.sensitivePatterns -> toLowerCase w = word ->
  Masking.fieldIdentifier t = pre ++ w ++ post ->
  input_listener st t =
    addLog st "INPUT" (Masking.fieldIdentifier t ++ " = " ++ dq ++ "[MASKED]" ++ dq)
      colors.INPUT JNull.
Proof.
  intros st t pre w post word Hp Htag Hin Hw Hid.
  apply input_listener_masked; try assumption.
  unfold Masking.isSensitive; rewrite Hid, (test_contains pre w post word Hin Hw).
  reflexivity.
Qed.

(** A text field named ["monkey"] holding ["banana"]. *)
Lemma input_mask_matches_substring_witness :
  let t := Masking.mkTarget false "input" "monkey" "" "text" "banana" in
  In "key" Masking.sensitivePatterns /\ toLowerCase "key" = "key" /\
  Masking.fieldIdentifier t = "mon" ++ "key" ++ "" /\
  input_listener (page "https://example.com" None) t =
    addLog (page "https://example.com" None) "INPUT"
      ("monkey = " ++ dq ++ "[MASKED]" ++ dq) colors.INPUT JNull.
Proof.
  intros t; split; [simpl; tauto | split; [reflexivity | split; [reflexivity |]]].
  apply (input_mask_matches_substring (page "https://example.com" None) t "mon" "key" "" "key");
    [reflexivity | reflexivity | simpl; tauto | reflexivity | reflexivity].
Defined.

(** ** The bounded buffer *)
Section Buffer.
Local Open Scope list_scope.

(** The last [k] elements of a list. *)
Definition lastn {A} (k : nat) (l : list A) : list A := skipn (length l - k) l.

Lemma lastn_rev : forall A k (l : list A), lastn k l = rev (firstn k (rev l)).
Proof. intros A k l; unfold lastn; now rewrite firstn_rev, rev_involutive. Qed.

Lemma lastn_lastn_app : forall A k (x y : list A),
  lastn k (lastn k x ++ y) = lastn k (x ++ y).
Proof.
  intros A k x y; rewrite !lastn_rev, !rev_app_distr, <- lastn_rev, lastn_rev,
    rev_involutive, !firstn_app, firstn_firstn.
  f_equal; f_equal; f_equal; lia.
Qed.

Lemma lastn_length : forall A k (l : list A), (length (lastn k l) <= k)%nat.
Proof. intros A k l; unfold lastn; rewrite length_skipn; lia. Qed.

(** Below the capacity, one push keeps the last [k] records. *)
Lemma push_limit_lastn : forall k l e,
  (1 <= k)%nat -> (length l <= k)%nat ->
  push_limit (Z.of_nat k) l e = lastn k (l ++ [e]).
Proof.
  intros k l e Hk Hl; unfold push_limit, lastn; rewrite length_app; simpl.
  destruct (Z.of_nat (length l + 1) >? Z.of_nat k) eqn:E.
  - rewrite Z.gtb_ltb, Z.ltb_lt in E.
    replace (length l + 1 - k)%nat with 1%nat by lia.
    now destruct (l ++ [e]).
  - rewrite Z.gtb_ltb, Z.ltb_ge in E.
    now replace (length l + 1 - k)%nat with 0%nat by lia.
Qed.

(** [addLog] leaves everything but the buffer, the storage item and the
    console and network traces as it was. *)
Definition frame (st st' : state) : Prop :=
  config st' = config st /\ sessionId st' = sessionId st /\ now st' = now st /\
  origin st' = origin st /\ fetch_wraps st' = fetch_wraps st /\
  xhr_wraps st' = xhr_wraps st /\ listener_sets st' = listener_sets st /\
  panels st' = panels st.

Lemma frame_refl : forall st, frame st st.
Proof. intros st; repeat split. Qed.

Lemma frame_trans : forall a b c, frame a b -> frame b c -> frame a c.
Proof.
  unfold frame; intros a b c H1 H2; intuition congruence.
Qed.

Definition default_details (d : jsval) : jsval :=
  match d with JUndef => JNull | d => d end.

Lemma addLog_array : forall st l type message color details,
  entries st = JArr l ->
  exists st', addLog st type message color details = Ok st' /\
    entries st' =
      JArr (push_limit (Config.maxEntries (config st)) l
              (mk_entry st type message color (default_details details))) /\
    frame st st'.
Proof.
  intros st l type message color details H.
  unfold addLog; rewrite H; eexists; split; [reflexivity |].
  assert (Hd : (match details with JUndef => JNull | d => d end) = default_details details)
    by reflexivity.
  rewrite Hd; clear Hd.
  destruct (Config.persistLogs (config st)), (Config.sendToServer (config st));
    cbn; unfold sendToServer; cbn;
    repeat match goal with |- context [if ?b then _ else _] => destruct b end;
    split; try reflexivity; repeat split.
Qed.

(** The record [addLog] appends for one call. *)
Definition call_entry (st : state) (call : string * string * string * jsval) : jsval :=
  let '(t, m, c, d) := call in mk_entry st t m c (default_details d).

Lemma call_entry_frame : forall st st' calls,
  frame st st' -> map (call_entry st') calls = map (call_entry st) calls.
Proof.
  intros st st' calls (_ & Hs & Hn & _); apply map_ext.
  intros [[[t m] c] d]; unfold call_entry, mk_entry; now rewrite Hs, Hn.
Qed.

Lemma addLogs_lastn : forall calls st l k,
  entries st = JArr l -> Z.of_nat k = Config.maxEntries (config st) ->
  (1 <= k)%nat -> (length l <= k)%nat ->
  exists st', addLogs st calls = Ok st' /\
    entries st' = JArr (lastn k (l ++ map (call_entry st) calls)) /\ frame st st'.
Proof.
  induction calls as [|[[[t m] c] d] calls IH]; intros st l k Hl Hk H1 Hlen.
  - exists st; simpl; rewrite app_nil_r; repeat split; try reflexivity.
    rewrite Hl; unfold lastn; now replace (length l - k)%nat with 0%nat by lia.
  - destruct (addLog_array st l t m c d Hl) as (st1 & E1 & Hl1 & F1).
    rewrite <- Hk, push_limit_lastn in Hl1 by assumption.
    destruct F1 as [Hc1 F1'].
    destruct (IH st1 _ k Hl1 ltac:(now rewrite Hc1) H1 (lastn_length _ _ _))
      as (st2 & E2 & Hl2 & F2).
    exists st2; simpl; rewrite E1; split; [exact E2 |]; split.
    + rewrite Hl2, lastn_lastn_app, <- app_assoc,
        (call_entry_frame st st1) by (split; assumption).
      reflexivity.
    + apply (frame_trans st st1 st2); [split; assumption | exact F2].
Qed.

End Buffer.


(** A page whose debugger keeps [m] entries. *)
Definition page_with_capacity (m : Z) : state :=
  set_config (page "https://example.com" None)
    (Config.mk false m false false "/api/debug-logs").

Definition calls_ABCD : list (string * string * string * jsval) :=
  [("INFO", "A", colors.INFO, JNull); ("INFO", "B", colors.INFO, JNull);
   ("INFO", "C", colors.INFO, JNull); ("INFO", "D", colors.INFO, JNull)].


(** The scenario of the spec: capacity 3, records A, B, C, D: the buffer
    ends as B, C, D. *)
Example capacity3_ABCD :
  match addLogs (page_with_capacity 3) calls_ABCD with
  | Ok st => entries st = JArr (map (call_entry (page_with_capacity 3)) (tl calls_ABCD))
  | Err _ => False
  end.
Proof. vm_compute; reflexivity. Qed.

(** ** What a successful [addLog] did *)

Lemma addLog_ok_inv : forall st type message color details st',
  addLog st type message color details = Ok st' ->
  frame st st' /\ (exists l, entries st' = JArr l) /\
  printed st' = (printed st ++ [("[" ++ type ++ "] " ++ message)%string])%list.
Proof.
  intros st type message color details st' H.
  unfold addLog in H; destruct (entries st) eqn:E; try discriminate.
  injection H as <-.
  destruct (Config.persistLogs (config st)), (Config.sendToServer (config st));
    cbn; unfold sendToServer; cbn;
    repeat match goal with |- context [if ?b then _ else _] => destruct b end;
    (split; [repeat split | split; [eexists; reflexivity | reflexivity]]).
Qed.

Lemma restoreLogs_frame : forall st, frame st (restoreLogs st).
Proof.
  intros st; unfold restoreLogs.
  destruct (storage_logs st) as [[j | s] |]; [| destruct (String.eqb s "") |];
    try apply frame_refl.
  - destruct (JSON_parse j); cbn;
      try match goal with |- context [if ?b then _ else _] => destruct b end;
      repeat split.
  - repeat split.
Qed.

Lemma init_ok_inv : forall opts st st',
  init opts st = Ok st' ->
  config st' = Config.assign (config st) opts /\
  fetch_wraps st' = S (fetch_wraps st) /\ sessionId st' = sessionId st /\
  exists l, entries st' = JArr l.
Proof.
  intros opts st st' H; unfold init in H.
  apply addLog_ok_inv in H as ((Hc & Hs & _ & _ & Hf & _) & Hl & _).
  destruct (Config.persistLogs _);
    [ destruct (restoreLogs_frame
        (setupListeners (injectHTML (set_config st (Config.assign (config st) opts)))))
        as (Hc' & Hs' & _ & _ & Hf' & _);
      rewrite Hc', Hs', Hf' in * |];
    cbn in *; repeat split; assumption.
Qed.

(** ** A persisted buffer longer than the capacity *)

Definition five_records : list jsval :=
  map (fun m => mk_entry (page "https://example.com" None) "INFO" m colors.INFO JNull)
    ["1"; "2"; "3"; "4"; "5"].

Definition buffer_length (v : jsval) : nat :=
  match v with JArr l => length l | _ => 0%nat end.

(** C3: [restoreLogs] assigns the stored array to [this.entries] without
    cutting it to [maxEntries], and [addLog] then shifts at most one record
    per call.  With five records stored and [init({maxEntries: 2,
    persistLogs: true})], the buffer after [init] holds five records, more
    than its capacity of two. *)
Theorem restore_exceeds_maxEntries :
  match init (Config.mkOptions None (Some 2) (Some true) None None)
             (page "https://example.com" (persisted (JArr five_records))) with
  | Ok st => Config.maxEntries (config st) = 2 /\ buffer_length (entries st) = 5%nat
  | Err _ => False
  end.
Proof. vm_compute; split; reflexivity. Qed.

(** ** Corrupt persisted data *)

(** C8: with [persistLogs] on, a stored text that is not JSON is only
    reported and [init] completes with the INIT record; but a stored JSON
    document that is not an array (here [{}]) is assigned to
    [this.entries] before [forEach] fails, and the [push] of the INIT
    record then throws out of [init]. *)
Theorem restore_non_array_breaks_init :
  (match init (Config.mkOptions None None (Some true) None None)
              (page "https://example.com" (Some (LSText "not json"))) with
   | Ok st => buffer_length (entries st) = 1%nat /\
              diagnostics st = ["Failed to restore logs:"]
   | Err _ => False
   end) /\
  init (Config.mkOptions None None (Some true) None None)
       (page "https://example.com" (Some (LSJson (Jobj [])))) =
    Err "TypeError: this.entries.push is not a function".
Proof. vm_compute; split; [split |]; reflexivity. Qed.

(** ** Endpoint policy of [sendToServer] *)

Definition endpoint_state (endpoint : string) : state :=
  set_config (page "https://example.com" None)
    (Config.mk false 100 false true endpoint).

Definition probe_entry : jsval :=
  mk_entry (page "https://example.com" None) "INFO" "probe" colors.INFO JNull.

(** C4: on a page of origin [https://example.com], the endpoint
    [https://evil.example.com/collect] is refused with a warning; but
    [https://example.com.evil.com/collect], whose origin is
    [https://example.com.evil.com], starts with the page's origin as a
    string and is posted to. *)
Theorem sendToServer_origin_prefix_posts_cross_origin :
  let blocked := sendToServer (endpoint_state "https://evil.example.com/collect") probe_entry in
  let sent := sendToServer (endpoint_state "https://example.com.evil.com/collect") probe_entry in
  requests blocked = [] /\
  diagnostics blocked = ["[LiveDebugger] Blocked cross-origin server endpoint for security"] /\
  url_origin "https://example.com.evil.com/collect" = Some "https://example.com.evil.com" /\
  origin (endpoint_state "https://example.com.evil.com/collect") = "https://example.com" /\
  map fst (requests sent) = ["https://example.com.evil.com/collect"] /\
  diagnostics sent = [].
Proof. vm_compute; repeat split. Qed.

(** ** Capacities below one *)

Lemma push_limit_small : forall m e, m < 1 -> push_limit m [] e = [].
Proof.
  intros m e Hm; unfold push_limit; simpl.
  replace (1 >? m) with true; [reflexivity |].
  symmetry; rewrite Z.gtb_ltb; apply Z.ltb_lt; lia.
Qed.

Lemma addLogs_small : forall calls st,
  entries st = JArr [] -> Config.maxEntries (config st) < 1 ->
  exists st', addLogs st calls = Ok st' /\ entries st' = JArr [].
Proof.
  induction calls as [|[[[t m] c] d] calls IH]; intros st H0 Hm.
  - exists st; split; [reflexivity | exact H0].
  - destruct (addLog_array st [] t m c d H0) as (st1 & E1 & Hl1 & Hc1 & _).
    rewrite push_limit_small in Hl1 by exact Hm.
    destruct (IH st1 Hl1 ltac:(now rewrite Hc1)) as (st2 & E2 & Hl2).
    exists st2; simpl; rewrite E1; split; assumption.
Qed.




(** ** The Clear button *)




(** ** Initialising twice *)

Definition request_line (url : string) : string := "[FETCH] >> " ++ url.

Definition response_line (url : string) (status : Z) : string :=
  "[FETCH] << " ++ string_of_Z status ++ " " ++ url.

Lemma fetch_wrapped_printed : forall n url status st l,
  entries st = JArr l ->
  exists st', fetch_wrapped n url (Resolved status) st = Ok st' /\
    (exists l', entries st' = JArr l') /\
    printed st' = (printed st ++ repeat (request_line url) n
                     ++ repeat (response_line url status) n)%list.
Proof.
  induction n as [|n IH]; intros url status st l Hl.
  - exists st; split; [reflexivity |]; split; [eexists; exact Hl |].
    simpl; now rewrite app_nil_r.
  - destruct (addLog_array st l "FETCH" (">> " ++ url) colors.FETCH JNull Hl)
      as (st1 & E1 & Hl1 & _).
    destruct (IH url status st1 _ Hl1) as (st2 & E2 & (l2 & Hl2) & P2).
    destruct (addLog_array st2 l2 "FETCH" ("<< " ++ string_of_Z status ++ " " ++ url)
                (if response_ok status then colors.INFO else colors.ERROR) JNull Hl2)
      as (st3 & E3 & Hl3 & _).
    exists st3; cbn [fetch_wrapped]; rewrite E1; cbn [bind]; rewrite E2; cbn [bind].
    split; [exact E3 |]; split; [eexists; exact Hl3 |].
    apply addLog_ok_inv in E1 as (_ & _ & P1).
    apply addLog_ok_inv in E3 as (_ & _ & P3).
    rewrite P3, P2, P1.
    assert (R : forall (x : string) k, x :: repeat x k = (repeat x k ++ [x])%list)
      by (intros x k; induction k as [|k IHk]; [reflexivity | simpl; now rewrite <- IHk]).
    cbn [repeat]; rewrite (R (response_line url status)), <- !app_assoc.
    reflexivity.
Qed.


Definition ok_or (d : state) (r : result state) : state :=
  match r with Ok s => s | Err _ => d end.

Definition once : state :=
  ok_or (page "https://example.com" None) (init Config.no_options (page "https://example.com" None)).

Definition twice : state := ok_or once (init Config.no_options once).



(** ** Persistence round trip *)

Lemma stringify_parse_safe : forall v,
  json_safe v = true -> exists j, JSON_stringify v = Some j /\ JSON_parse j = v.
Proof.
  induction v using jsval_ind'; simpl; intros Hs; try discriminate;
    try (eexists; split; reflexivity).
  - (* arrays *)
    eexists; split; [reflexivity |]; f_equal.
    induction H as [|x r Px Pr IHr]; [reflexivity |].
    simpl in Hs; apply andb_true_iff in Hs as [Hx Hr].
    destruct (Px Hx) as (j & E & Ej); rewrite E; simpl.
    specialize (IHr Hr); simpl in IHr; injection IHr as IHr.
    now rewrite Ej, IHr.
  - (* objects *)
    eexists; split; [reflexivity |]; f_equal.
    induction H as [|[k x] r Px Pr IHr]; [reflexivity |].
    simpl in Hs, Px; apply andb_true_iff in Hs as [Hx Hr].
    destruct (Px Hx) as (j & E & Ej); rewrite E; simpl.
    specialize (IHr Hr); simpl in IHr; injection IHr as IHr.
    now rewrite Ej, IHr.
Qed.


Definition persist_page : state :=
  set_config (page "https://example.com" None)
    (Config.mk false 100 true false "/api/debug-logs").

Definition after_two_logs : state :=
  ok_or persist_page
    (addLogs persist_page [("INFO", "first", colors.INFO, JNull);
                           ("INFO", "second", colors.INFO, JObj [("count", JNum 2)])]).



(** * Further parts of the debugger *)

(** ** The rest of [this.colors] *)
Module palette.
Definition CLICK := "#DEFF63".
Definition KEY := "#DEFF63".
Definition FORM := "#8FC22A".
Definition HTMX := "#D67008".
End palette.

(** ** [escapeHtml]: [div.textContent = text; return div.innerHTML]

    Serialising a text node escapes [&], the no-break space (character
    160), [<] and [>] (HTML, "escaping a string" outside attribute mode). *)
Definition escape_char (c : ascii) : string :=
  if Ascii.eqb c "&"%char then "&amp;"
  else if Ascii.eqb c (ascii_of_nat 160) then "&nbsp;"
  else if Ascii.eqb c "<"%char then "&lt;"
  else if Ascii.eqb c ">"%char then "&gt;"
  else String c EmptyString.

Fixpoint escapeHtml (text : string) : string :=
  match text with
  | EmptyString => EmptyString
  | String c r => escape_char c ++ escapeHtml r
  end.

Fixpoint has_char (c : ascii) (s : string) : bool :=
  match s with
  | EmptyString => false
  | String d r => Ascii.eqb c d || has_char c r
  end.

(** ** The keydown listener *)
Record key_event := mkKeyEvent { key : string; target_tagName : string; target_id : string }.

Definition keydown_handler (e : key_event) : option (string * string * string) :=
  if existsb (String.eqb (key e)) ["Enter"; "Escape"; "/"] then
    Some ("KEY", key e ++ " pressed on " ++ target_tagName e ++
                 (if String.eqb (target_id e) "" then "" else "#" ++ target_id e),
          palette.KEY)
  else None.

Definition keydown_listener (st : state) (e : key_event) : result state :=
  match keydown_handler e with
  | Some (type, message, color) => addLog st type message color JNull
  | None => Ok st
  end.

(** ** Properties of the listeners *)

Lemma has_char_app : forall c a b, has_char c (a ++ b) = has_char c a || has_char c b.
Proof.
  induction a as [|d a IH]; intros b; simpl; [reflexivity |].
  now rewrite IH, orb_assoc.
Qed.

(** [escapeHtml] leaves no [<] or [>] in its output, so a message rendered
    through it cannot open or close a tag. *)
Theorem escapeHtml_no_angle_brackets : forall text,
  has_char "<"%char (escapeHtml text) = false /\ has_char ">"%char (escapeHtml text) = false.
Proof.
  induction text as [|c r [IH1 IH2]]; [split; reflexivity |].
  simpl; rewrite !has_char_app, IH1, IH2, !orb_false_r.
  unfold escape_char.
  destruct (Ascii.eqb c "&"%char); [split; reflexivity |].
  destruct (Ascii.eqb c (ascii_of_nat 160)); [split; reflexivity |].
  destruct (Ascii.eqb c "<"%char) eqn:Elt; [split; reflexivity |].
  destruct (Ascii.eqb c ">"%char) eqn:Egt; [split; reflexivity |].
  cbn [has_char]; rewrite !orb_false_r.
  split; rewrite Ascii.eqb_sym; assumption.
Qed.

(** A text without [&], [<], [>] or no-break space is rendered unchanged. *)
Theorem escapeHtml_plain_text_unchanged : forall text,
  has_char "&"%char text = false -> has_char "<"%char text = false ->
  has_char ">"%char text = false -> has_char (ascii_of_nat 160) text = false ->
  escapeHtml text = text.
Proof.
  induction text as [|c r IH]; intros H1 H2 H3 H4; [reflexivity |].
  cbn [has_char escapeHtml] in *; apply orb_false_iff in H1 as [A1 B1], H2 as [A2 B2],
    H3 as [A3 B3], H4 as [A4 B4].
  unfold escape_char; rewrite Ascii.eqb_sym in A1, A2, A3, A4.
  rewrite A1, A4, A2, A3; cbn [append]; now rewrite IH.
Qed.

Lemma escapeHtml_plain_text_unchanged_witness :
  has_char "&"%char "GET /api/items 200" = false /\ has_char "<"%char "GET /api/items 200" = false /\
  has_char ">"%char "GET /api/items 200" = false /\
  has_char (ascii_of_nat 160) "GET /api/items 200" = false /\
  escapeHtml "GET /api/items 200" = "GET /api/items 200".
Proof.
  do 4 (split; [reflexivity |]).
  apply escapeHtml_plain_text_unchanged; reflexivity.
Defined.



Lemma substring0_prefix : forall n s,
  (String.length (substring 0 n s) <= n)%nat /\ startsWith s (substring 0 n s) = true /\
  ((String.length s <= n)%nat -> substring 0 n s = s).
Proof.
  induction n as [|n IH]; intros s.
  - destruct s as [|c r]; cbn; (split; [lia | split; [reflexivity |]]);
      intros H; [reflexivity | lia].
  - destruct s as [|c r].
    + split; [simpl; lia | split; reflexivity].
    + destruct (IH r) as (H1 & H2 & H3).
      split; [simpl; lia | split].
      * cbn [substring startsWith]; now rewrite Ascii.eqb_refl, H2.
      * intros H; cbn [substring]; rewrite H3 by (simpl in H; lia); reflexivity.
Qed.

(** A field that is neither a password field nor matched by the sensitive
    test is logged with its value cut to the first 50 characters: the
    recorded value is a prefix of the raw value, at most 50 characters
    long, and the whole value when that has at most 50 characters. *)
Theorem input_plain_value_truncated : forall st t,
  Masking.in_panel t = false ->
  String.eqb (toLowerCase (Masking.tagName t)) "input"
    || String.eqb (toLowerCase (Masking.tagName t)) "textarea" = true ->
  Masking.isSensitive t = false ->
  exists v, input_listener st t =
      addLog st "INPUT" (Masking.fieldIdentifier t ++ " = " ++ dq ++ v ++ dq) colors.INPUT JNull /\
    (String.length v <= 50)%nat /\ startsWith (Masking.value t) v = true /\
    ((String.length (Masking.value t) <= 50)%nat -> v = Masking.value t).
Proof.
  intros st t Hp Htag Hs.
  exists (substring 0 50 (Masking.value t)); split.
  - unfold input_listener, Masking.input_handler, Masking.masked_value.
    now rewrite Hp, Htag, Hs.
  - apply substring0_prefix.
Qed.

Lemma input_plain_value_truncated_witness :
  let t := Masking.mkTarget false "textarea" "comment" "" "textarea" "hello" in
  Masking.in_panel t = false /\
  String.eqb (toLowerCase (Masking.tagName t)) "input"
    || String.eqb (toLowerCase (Masking.tagName t)) "textarea" = true /\
  Masking.isSensitive t = false /\
  exists v, input_listener (page "https://example.com" None) t =
      addLog (page "https://example.com" None) "INPUT"
        (Masking.fieldIdentifier t ++ " = " ++ dq ++ v ++ dq) colors.INPUT JNull /\
    (String.length v <= 50)%nat /\ startsWith (Masking.value t) v = true /\
    ((String.length (Masking.value t) <= 50)%nat -> v = Masking.value t).
Proof.
  intros t.
  assert (H1 : Masking.in_panel t = false) by reflexivity.
  assert (H2 : String.eqb (toLowerCase (Masking.tagName t)) "input"
                 || String.eqb (toLowerCase (Masking.tagName t)) "textarea" = true)
    by (vm_compute; reflexivity).
  assert (H3 : Masking.isSensitive t = false) by (vm_compute; reflexivity).
  split; [exact H1 | split; [exact H2 | split; [exact H3 |]]].
  exact (input_plain_value_truncated _ t H1 H2 H3).
Defined.



Lemma ascii_lower_idem : forall c, ascii_lower (ascii_lower c) = ascii_lower c.
Proof.
  intros c; unfold ascii_lower.
  destruct ((65 <=? nat_of_ascii c)%nat && (nat_of_ascii c <=? 90)%nat) eqn:E.
  - apply andb_true_iff in E as [E1 E2]; apply Nat.leb_le in E1, E2.
    rewrite nat_ascii_embedding by lia.
    replace ((65 <=? nat_of_ascii c + 32)%nat && (nat_of_ascii c + 32 <=? 90)%nat) with false;
      [reflexivity |].
    symmetry; apply andb_false_iff; right; apply Nat.leb_gt; lia.
  - now rewrite E.
Qed.

Lemma toLowerCase_idem : forall s, toLowerCase (toLowerCase s) = toLowerCase s.
Proof. induction s as [|c r IH]; simpl; [reflexivity | now rewrite ascii_lower_idem, IH]. Qed.

Lemma test_toLowerCase : forall s, Masking.test (toLowerCase s) = Masking.test s.
Proof.
  induction s as [|c r IH]; [reflexivity |].
  change (toLowerCase (String c r)) with (String (ascii_lower c) (toLowerCase r)).
  cbn [Masking.test]; rewrite IH; f_equal.
  unfold Masking.matches_here.
  change (toLowerCase (String (ascii_lower c) (toLowerCase r)))
    with (toLowerCase (toLowerCase (String c r))).
  now rewrite toLowerCase_idem.
Qed.



(** ** Properties of [addLog] and its sinks *)

Lemma sendToServer_storage_logs : forall st entry,
  storage_logs (sendToServer st entry) = storage_logs st.
Proof.
  intros st entry; unfold sendToServer.
  destruct (String.eqb _ _); [reflexivity |]; destruct (_ && _); reflexivity.
Qed.

Lemma sendToServer_entries : forall st entry,
  entries (sendToServer st entry) = entries st.
Proof.
  intros st entry; unfold sendToServer.
  destruct (String.eqb _ _); [reflexivity |]; destruct (_ && _); reflexivity.
Qed.






Definition relative_sender : state :=
  set_config (page "https://example.com" None) (Config.mk false 100 false true "/api/debug-logs").






(** ** More listeners, [toggle] and [exportLogs] *)

(** A sequence of [addLog] calls prints one console line per call. *)
Definition call_line (call : string * string * string * jsval) : string :=
  let '(t, m, _, _) := call in "[" ++ t ++ "] " ++ m.

(** The record the [.catch] of a fetch wrapper prints. *)
Definition fetch_error_line (msg : string) : string := "[ERROR] Fetch error: " ++ msg.

(** [htmx:afterRequest]: [e.detail.xhr.status], [e.detail.xhr.responseText]
    and [e.detail.pathInfo] (its [requestPath], when present). *)
Record htmx_detail := mkHtmxDetail {
  xhr_status : Z;
  responseText : string;
  pathInfo : option string
}.

Definition afterRequest_summary (d : htmx_detail) : string :=
  let url := match pathInfo d with Some p => p | None => "unknown" end in
  string_of_Z (xhr_status d) ++ " from " ++ url ++ " (" ++
    string_of_Z (Z.of_nat (String.length (responseText d))) ++ " bytes)".

Definition htmx_afterRequest (st : state) (d : htmx_detail) : result state :=
  let status := xhr_status d in
  let statusColor :=
    if (200 <=? status) && (status <? 300) then colors.INFO else colors.ERROR in
  let* st1 := addLog st "HTMX" (afterRequest_summary d) statusColor JNull in
  if 400 <=? status then
    addLog st1 "ERROR" (substring 0 200 (responseText d)) colors.ERROR JNull
  else Ok st1.

(** White space as [String.prototype.trim] removes it, among the code
    units 0-255: TAB, LF, VT, FF, CR, SPACE and NO-BREAK SPACE. *)
Definition is_trim_ws (c : ascii) : bool :=
  let n := nat_of_ascii c in
  (Nat.eqb n 32 || (Nat.leb 9 n && Nat.leb n 13) || Nat.eqb n 160)%bool.

Fixpoint trimStart (s : string) : string :=
  match s with
  | EmptyString => EmptyString
  | String c r => if is_trim_ws c then trimStart r else s
  end.

Fixpoint trimEnd (s : string) : string :=
  match s with
  | EmptyString => EmptyString
  | String c r =>
      let r' := trimEnd r in
      if is_trim_ws c && String.eqb r' "" then EmptyString else String c r'
  end.

Definition trim (s : string) : string := trimEnd (trimStart s).

(** [element.classList]: the [class] attribute split on ASCII white space
    (TAB, LF, FF, CR, SPACE), as an ordered set. *)
Definition is_class_ws (c : ascii) : bool :=
  let n := nat_of_ascii c in
  (Nat.eqb n 32 || Nat.eqb n 9 || Nat.eqb n 10 || Nat.eqb n 12 || Nat.eqb n 13)%bool.

Fixpoint split_tokens (s : string) (cur : string) : list string :=
  match s with
  | EmptyString => if String.eqb cur "" then [] else [cur]
  | String c r =>
      if is_class_ws c then
        (if String.eqb cur "" then [] else [cur]) ++ split_tokens r ""
      else split_tokens r (cur ++ String c EmptyString)
  end%list.

Fixpoint dedup_from (seen : list string) (l : list string) : list string :=
  match l with
  | [] => []
  | x :: r =>
      if existsb (String.eqb x) seen then dedup_from seen r
      else x :: dedup_from (seen ++ [x])%list r
  end.

Definition classList (className : string) : list string :=
  dedup_from [] (split_tokens className "").

Fixpoint join (sep : string) (l : list string) : string :=
  match l with
  | [] => ""
  | [x] => x
  | x :: r => x ++ sep ++ join sep r
  end.

(** The target of a [click]: whether it lies in [#live-debug-panel], its
    [tagName], [id], [className], [textContent], and its [hx-get] and
    [hx-post] attributes when present. *)
Record click_target := mkClickTarget {
  c_in_panel : bool;
  c_tagName : string;
  c_id : string;
  c_className : string;
  c_textContent : string;
  hx_get : option string;
  hx_post : option string
}.

Definition click_text (t : click_target) : string :=
  if String.eqb (c_textContent t) "" then "" else substring 0 40 (trim (c_textContent t)).

Definition click_calls (t : click_target) : list (string * string * string * jsval) :=
  if c_in_panel t then []
  else
    let tagName := toLowerCase (c_tagName t) in
    let id := if String.eqb (c_id t) "" then "" else "#" ++ c_id t in
    let classes :=
      if String.eqb (c_className t) "" then "" else "." ++ join "." (classList (c_className t)) in
    [("CLICK", tagName ++ id ++ classes ++ " - " ++ dq ++ click_text t ++ dq, palette.CLICK, JNull)] ++
    match hx_get t with
    | Some v => [("HTMX", "Element has hx-get=" ++ dq ++ v ++ dq, palette.HTMX, JNull)]
    | None => []
    end ++
    match hx_post t with
    | Some v => [("HTMX", "Element has hx-post=" ++ dq ++ v ++ dq, palette.HTMX, JNull)]
    | None => []
    end.

(** The document [click] listener: its [addLog] calls in order. *)
Definition click_listener (st : state) (t : click_target) : result state :=
  addLogs st (click_calls t).

(** [XMLHttpRequest]: a request settles with a [load] event and its
    status, or an [error] event. *)
Inductive xhr_outcome : Type :=
| Load (status : Z)
| NetError.

(** [xhr.send()] with [n] wrappers stacked: each logs [>> method url],
    adds its [load] and [error] listeners, then calls the [send] it
    wrapped.  The result counts the listener pairs added. *)
Fixpoint xhr_send (n : nat) (method url : string) (st : state) : result (state * nat) :=
  match n with
  | O => Ok (st, O)
  | S n' =>
      let* st1 := addLog st "XHR" (">> " ++ method ++ " " ++ url) colors.FETCH JNull in
      let* p := xhr_send n' method url st1 in
      Ok (fst p, S (snd p))
  end.

(** The event then runs the [k] listeners added for it, in order. *)
Fixpoint xhr_settle (k : nat) (url : string) (o : xhr_outcome) (st : state) : result state :=
  match k with
  | O => Ok st
  | S k' =>
      let* st1 :=
        match o with
        | Load status =>
            addLog st "XHR" ("<< " ++ string_of_Z status ++ " " ++ url)
              (if (200 <=? status) && (status <? 300) then colors.INFO else colors.ERROR) JNull
        | NetError => addLog st "ERROR" ("XHR error: " ++ url) colors.ERROR JNull
        end in
      xhr_settle k' url o st1
  end.

Definition xhr_request (st : state) (method url : string) (o : xhr_outcome) : result state :=
  let* p := xhr_send (xhr_wraps st) method url st in
  xhr_settle (snd p) url o (fst p).

Definition xhr_request_line (method url : string) : string := "[XHR] >> " ++ method ++ " " ++ url.

Definition xhr_outcome_line (url : string) (o : xhr_outcome) : string :=
  match o with
  | Load status => "[XHR] << " ++ string_of_Z status ++ " " ++ url
  | NetError => "[ERROR] XHR error: " ++ url
  end.

(** [toggle()]: flips [config.enabled], writes it to the item
    ['live-debugger-enabled'] (returned beside the state), sets the panel's
    display ([this.panel] is [null] until [injectHTML] ran) and logs when
    the panel is enabled. *)
Definition toggle (st : state) : result (state * string) :=
  let c := config st in
  let c' := Config.mk (negb (Config.enabled c)) (Config.maxEntries c)
              (Config.persistLogs c) (Config.sendToServer c) (Config.serverEndpoint c) in
  let st1 := set_config st c' in
  let item := if Config.enabled c' then "true" else "false" in
  if Nat.eqb (panels st1) 0 then Err "TypeError: Cannot read properties of null (reading 'style')"
  else if Config.enabled c' then
    let* st2 := addLog st1 "INFO" "Debug panel enabled" colors.INFO JNull in
    Ok (st2, item)
  else Ok (st1, item).

(** [this.entries.length] as a template literal writes it.  ([entries]
    only ever holds an array or what [JSON.parse] returned, never a
    function.) *)
Definition length_text (v : jsval) : result string :=
  match v with
  | JArr l => Ok (string_of_Z (Z.of_nat (length l)))
  | JStr s => Ok (string_of_Z (Z.of_nat (String.length s)))
  | JNull => Err "TypeError: Cannot read properties of null (reading 'length')"
  | JUndef => Err "TypeError: Cannot read properties of undefined (reading 'length')"
  | _ => Ok "undefined"
  end.

(** [exportLogs()] on a page whose [location.pathname] is [pathname]: the
    downloaded file (its name and the JSON document it holds), and the
    state after the closing [addLog]. *)
Definition exportLogs (st : state) (pathname : string) : (string * json) * result state :=
  let data := JObj [("sessionId", JStr (sessionId st)); ("exportedAt", JStr (now st));
                    ("pageUrl", JStr pathname); ("entries", entries st)] in
  let file := ("debug-logs-" ++ sessionId st ++ ".json",
               match JSON_stringify data with Some j => j | None => Jnull end) in
  (file,
   let* n := length_text (entries st) in
   addLog st "INFO" ("Exported " ++ n ++ " log entries") colors.INFO JNull).

(** ** The first copy: src/live-debugger/debugger.js

    Its object literal has a key [log: null] and, further down, a method
    [log(type, message, color)]; the later key wins, so [this.log] is the
    method until [injectHTML] assigns [document.getElementById('debug-log')]
    to it.  An exception leaves the heap as the statements before it made
    it, so an outcome carries the state in both cases. *)
Module Legacy.

Module colors.
Definition INIT := "#0f0".
End colors.

Inductive slot : Type := Method | Element.

Record t := mk { core : state; log_slot : slot }.

Inductive outcome : Type :=
| Done (s : t)
| Threw (s : t) (msg : string).

Definition mk_entry (st : state) (type message color : string) : jsval :=
  JObj [("timestamp", JStr (now st)); ("sessionId", JStr (sessionId st));
        ("type", JStr type); ("message", JStr message); ("color", JStr color)].

(** [sendToServer(entry)]: no check of the endpoint beyond being set. *)
Definition sendToServer (st : state) (entry : jsval) : state :=
  let endpoint := Config.serverEndpoint (config st) in
  if String.eqb endpoint "" then st
  else post st endpoint (match JSON_stringify entry with Some j => j | None => Jnull end).

(** [log(type, message, color)]: push, shift, persist and send, then
    [this.log.appendChild(div)]. *)
Definition log (s : t) (type message color : string) : outcome :=
  match log_slot s with
  | Element => Threw s "TypeError: this.log is not a function"
  | Method =>
      let st := core s in
      let entry := mk_entry st type message color in
      match entries st with
      | JArr l =>
          let st1 := set_entries st (JArr (push_limit (Config.maxEntries (config st)) l entry)) in
          let st2 := if Config.persistLogs (config st1) then persistLogs st1 else st1 in
          let st3 := if Config.sendToServer (config st2) then sendToServer st2 entry else st2 in
          Threw (mk st3 Method) "TypeError: this.log.appendChild is not a function"
      | _ => Threw s "TypeError: this.entries.push is not a function"
      end
  end.

(** [injectHTML()] ends with [this.log = document.getElementById('debug-log')]. *)
Definition injectHTML (s : t) : t := mk (injectHTML (core s)) Element.

Definition setupListeners (s : t) : t := mk (setupListeners (core s)) (log_slot s).

(** [restoreLogs()] differs from the second copy only in the markup it
    renders: it assigns the parsed value, fails on the same inputs (a text
    that is not JSON, a value without [forEach], a [null] element) and
    reports them with the same message, so the same model serves. *)
Definition restoreLogs (s : t) : t := mk (restoreLogs (core s)) (log_slot s).

Definition init (opts : Config.options) (s : t) : outcome :=
  let s1 := mk (set_config (core s) (Config.assign (config (core s)) opts)) (log_slot s) in
  let s2 := injectHTML s1 in
  let s3 := setupListeners s2 in
  let s4 := if Config.persistLogs (config (core s3)) then restoreLogs s3 else s3 in
  log s4 "INIT" ("Live Debugger v1.0.0 initialized (session: " ++ sessionId (core s4) ++ ")")
    colors.INIT.

End Legacy.

(** ** Properties of the listeners, [toggle] and [exportLogs] *)

Lemma addLogs_printed : forall calls st l,
  entries st = JArr l ->
  exists st', addLogs st calls = Ok st' /\ (exists l', entries st' = JArr l') /\
    printed st' = (printed st ++ map call_line calls)%list.
Proof.
  induction calls as [|[[[t m] c] d] calls IH]; intros st l Hl.
  - exists st; split; [reflexivity |]; split; [eexists; exact Hl |].
    simpl; now rewrite app_nil_r.
  - destruct (addLog_array st l t m c d Hl) as (st1 & E1 & Hl1 & _).
    destruct (IH st1 _ Hl1) as (st2 & E2 & H2 & P2).
    exists st2; simpl; rewrite E1; split; [exact E2 |]; split; [exact H2 |].
    apply addLog_ok_inv in E1 as (_ & _ & P1).
    rewrite P2, P1, <- app_assoc; reflexivity.
Qed.

Lemma repeat_snoc : forall (x : string) k, x :: repeat x k = (repeat x k ++ [x])%list.
Proof.
  intros x k; induction k as [|k IHk]; [reflexivity | cbn [repeat]; now rewrite IHk at 1].
Qed.

Lemma fetch_wrapped_array : forall n url o st st' l,
  entries st = JArr l -> fetch_wrapped n url o st = Ok st' -> exists l', entries st' = JArr l'.
Proof.
  induction n as [|n IH]; intros url o st st' l Hl E.
  - injection E as <-; eexists; exact Hl.
  - cbn [fetch_wrapped] in E.
    destruct (addLog_array st l "FETCH" (">> " ++ url) colors.FETCH JNull Hl)
      as (sa & Ea & Hla & _); rewrite Ea in E; cbn [bind] in E.
    destruct (fetch_wrapped n url o sa) as [sb |] eqn:Eb; [| discriminate].
    cbn [bind] in E; destruct o; apply addLog_ok_inv in E as (_ & H & _); exact H.
Qed.






Definition button_click : click_target :=
  mkClickTarget false "BUTTON" "save" "btn  btn-primary btn" "\n    Save changes   \n"
    None (Some "/api/save").


Lemma xhr_send_lines : forall n method url st l,
  entries st = JArr l ->
  exists st' l', xhr_send n method url st = Ok (st', n) /\ entries st' = JArr l' /\
    printed st' = (printed st ++ repeat (xhr_request_line method url) n)%list.
Proof.
  induction n as [|n IH]; intros method url st l Hl.
  - exists st, l; split; [reflexivity |]; split; [exact Hl |]; simpl; now rewrite app_nil_r.
  - destruct (addLog_array st l "XHR" (">> " ++ method ++ " " ++ url) colors.FETCH JNull Hl)
      as (st1 & E1 & Hl1 & _).
    destruct (IH method url st1 _ Hl1) as (st2 & l2 & E2 & Hl2 & P2).
    exists st2, l2; cbn [xhr_send]; rewrite E1; cbn [bind]; rewrite E2; cbn [bind fst snd].
    split; [reflexivity |]; split; [exact Hl2 |].
    apply addLog_ok_inv in E1 as (_ & _ & P1).
    rewrite P2, P1, <- app_assoc; reflexivity.
Qed.

Lemma xhr_settle_lines : forall k url o st l,
  entries st = JArr l ->
  exists st', xhr_settle k url o st = Ok st' /\
    printed st' = (printed st ++ repeat (xhr_outcome_line url o) k)%list.
Proof.
  induction k as [|k IH]; intros url o st l Hl.
  - exists st; split; [reflexivity |]; simpl; now rewrite app_nil_r.
  - assert (H1 : exists st1 l1,
               match o with
               | Load status =>
                   addLog st "XHR" ("<< " ++ string_of_Z status ++ " " ++ url)
                     (if (200 <=? status) && (status <? 300) then colors.INFO else colors.ERROR) JNull
               | NetError => addLog st "ERROR" ("XHR error: " ++ url) colors.ERROR JNull
               end = Ok st1 /\ entries st1 = JArr l1 /\
               printed st1 = (printed st ++ [xhr_outcome_line url o])%list).
    { destruct o as [status |].
      - destruct (addLog_array st l "XHR" ("<< " ++ string_of_Z status ++ " " ++ url)
                    (if (200 <=? status) && (status <? 300) then colors.INFO else colors.ERROR)
                    JNull Hl) as (st1 & E1 & Hl1 & _).
        eexists st1, _; split; [exact E1 |]; split; [exact Hl1 |].
        apply addLog_ok_inv in E1 as (_ & _ & P1); exact P1.
      - destruct (addLog_array st l "ERROR" ("XHR error: " ++ url) colors.ERROR JNull Hl)
          as (st1 & E1 & Hl1 & _).
        eexists st1, _; split; [exact E1 |]; split; [exact Hl1 |].
        apply addLog_ok_inv in E1 as (_ & _ & P1); exact P1. }
    destruct H1 as (st1 & l1 & E1 & Hl1 & P1).
    destruct (IH url o st1 l1 Hl1) as (st2 & E2 & P2).
    exists st2; cbn [xhr_settle]; rewrite E1; cbn [bind]; split; [exact E2 |].
    rewrite P2, P1, <- app_assoc; reflexivity.
Qed.



Lemma toggle_step : forall st l,
  (1 <= panels st)%nat -> entries st = JArr l ->
  exists st' l',
    toggle st = Ok (st', if negb (Config.enabled (config st)) then "true" else "false") /\
    entries st' = JArr l' /\ panels st' = panels st /\
    config st' = Config.mk (negb (Config.enabled (config st))) (Config.maxEntries (config st))
                   (Config.persistLogs (config st)) (Config.sendToServer (config st))
                   (Config.serverEndpoint (config st)) /\
    printed st' = (printed st ++ (if negb (Config.enabled (config st))
                                  then ["[INFO] Debug panel enabled"] else []))%list.
Proof.
  intros st l Hp Hl; unfold toggle; cbn [config set_config panels].
  replace (Nat.eqb (panels st) 0) with false by (symmetry; apply Nat.eqb_neq; lia).
  destruct (Config.enabled (config st)); cbn [negb Config.enabled].
  - eexists _, l; split; [reflexivity |]; split; [exact Hl |].
    split; [reflexivity |]; split; [reflexivity |]; cbn; now rewrite app_nil_r.
  - set (st1 := set_config st (Config.mk true (Config.maxEntries (config st))
                  (Config.persistLogs (config st)) (Config.sendToServer (config st))
                  (Config.serverEndpoint (config st)))).
    destruct (addLog_array st1 l "INFO" "Debug panel enabled" colors.INFO JNull Hl)
      as (st2 & E & Hl2 & (Hc & _ & _ & _ & _ & _ & _ & Hpn)).
    rewrite E; cbn [bind].
    eexists st2, _; split; [reflexivity |]; split; [exact Hl2 |].
    split; [exact Hpn |]; split; [exact Hc |].
    apply addLog_ok_inv in E as (_ & _ & P); exact P.
Qed.





Lemma push_limit_last : forall m l e, 1 <= m -> exists older, push_limit m l e = (older ++ [e])%list.
Proof.
  intros m l e Hm; unfold push_limit.
  destruct (Z.of_nat (length (l ++ [e])%list) >? m) eqn:C.
  - destruct l as [|x r].
    + cbn in C; rewrite Z.gtb_ltb, Z.ltb_lt in C; lia.
    + exists r; reflexivity.
  - exists l; reflexivity.
Qed.

Lemma restoreLogs_printed : forall st, printed (restoreLogs st) = printed st.
Proof.
  intros st; unfold restoreLogs.
  destruct (storage_logs st) as [[j | s] |]; [| destruct (String.eqb s "") |]; try reflexivity.
  destruct (JSON_parse j); cbn;
    try match goal with |- context [if ?b then _ else _] => destruct b end; reflexivity.
Qed.

(** When [init] completes with a capacity of at least one, its INIT record
    (stamped with the page's session id and time) is the newest record of
    the buffer, after whatever [restoreLogs] brought back, and it is the
    only console line [init] prints. *)
Theorem init_INIT_newest : forall opts st st',
  init opts st = Ok st' -> 1 <= Config.maxEntries (config st') ->
  exists older,
    entries st' = JArr (older ++ [mk_entry st "INIT"
      ("Live Debugger v1.0.0 initialized (session: " ++ sessionId st ++ ")") colors.INIT JNull])%list /\
    printed st' = (printed st ++
      [("[INIT] Live Debugger v1.0.0 initialized (session: " ++ sessionId st ++ ")")%string])%list.
Proof.
  intros opts st st' H Hm; unfold init in H.
  set (st3 := setupListeners (injectHTML (set_config st (Config.assign (config st) opts)))) in H.
  set (st4 := if Config.persistLogs (config st3) then restoreLogs st3 else st3) in H.
  assert (F4 : sessionId st4 = sessionId st /\ now st4 = now st /\ printed st4 = printed st).
  { unfold st4; destruct (Config.persistLogs (config st3)); [| repeat split].
    destruct (restoreLogs_frame st3) as (_ & Hs & Hn & _).
    rewrite Hs, Hn, restoreLogs_printed; repeat split. }
  destruct F4 as (Hs4 & Hn4 & Hp4).
  destruct (entries st4) as [| | | | | | l4 | |] eqn:E4;
    try (unfold addLog in H; rewrite E4 in H; discriminate).
  destruct (addLog_array st4 l4 "INIT"
              ("Live Debugger v1.0.0 initialized (session: " ++ sessionId st4 ++ ")")
              colors.INIT JNull E4) as (st5 & E5 & Hl5 & (Hc5 & _)).
  rewrite H in E5; injection E5 as <-.
  rewrite Hc5 in Hm; destruct (push_limit_last _ l4
    (mk_entry st4 "INIT" ("Live Debugger v1.0.0 initialized (session: " ++ sessionId st4 ++ ")")
       colors.INIT (default_details JNull)) Hm) as (older & Eo).
  exists older; split.
  - rewrite Hl5, Eo; unfold mk_entry; rewrite Hs4, Hn4; reflexivity.
  - apply addLog_ok_inv in H as (_ & _ & P); rewrite P, Hp4, Hs4; reflexivity.
Qed.

Lemma init_INIT_newest_witness :
  init Config.no_options (page "https://example.com" None) = Ok once /\
  1 <= Config.maxEntries (config once) /\
  exists older,
    entries once = JArr (older ++ [mk_entry (page "https://example.com" None) "INIT"
      ("Live Debugger v1.0.0 initialized (session: " ++
       sessionId (page "https://example.com" None) ++ ")") colors.INIT JNull])%list /\
    printed once = (printed (page "https://example.com" None) ++
      [("[INIT] Live Debugger v1.0.0 initialized (session: " ++
        sessionId (page "https://example.com" None) ++ ")")%string])%list.
Proof.
  assert (H : init Config.no_options (page "https://example.com" None) = Ok once)
    by (vm_compute; reflexivity).
  assert (Hm : 1 <= Config.maxEntries (config once)) by (vm_compute; discriminate).
  split; [exact H | split; [exact Hm |]].
  exact (init_INIT_newest Config.no_options (page "https://example.com" None) once H Hm).
Defined.

(** ** Properties of src/live-debugger/debugger.js *)

Lemma legacy_sendToServer_printed : forall st entry,
  printed (Legacy.sendToServer st entry) = printed st.
Proof.
  intros st entry; unfold Legacy.sendToServer; destruct (String.eqb _ _); reflexivity.
Qed.

Lemma legacy_sendToServer_entries : forall st entry,
  entries (Legacy.sendToServer st entry) = entries st.
Proof.
  intros st entry; unfold Legacy.sendToServer; destruct (String.eqb _ _); reflexivity.
Qed.

(** In debugger.js, [init] never completes: it injects the panel (which
    overwrites the [log] method with the [#debug-log] element), installs
    the listeners and interceptors, and then throws [this.log is not a
    function] at its own INIT call, before any console line; with
    [persistLogs] off the buffer is left as it was, without an INIT
    record. *)
Theorem legacy_init_always_throws : forall opts s,
  exists s', Legacy.init opts s = Legacy.Threw s' "TypeError: this.log is not a function" /\
    Legacy.log_slot s' = Legacy.Element /\
    panels (Legacy.core s') = S (panels (Legacy.core s)) /\
    fetch_wraps (Legacy.core s') = S (fetch_wraps (Legacy.core s)) /\
    printed (Legacy.core s') = printed (Legacy.core s) /\
    (Config.persistLogs (Config.assign (config (Legacy.core s)) opts) = false ->
     entries (Legacy.core s') = entries (Legacy.core s)).
Proof.
  intros opts [st sl]; unfold Legacy.init, Legacy.injectHTML, Legacy.setupListeners.
  cbn [Legacy.core Legacy.log_slot config set_config injectHTML setupListeners].
  destruct (Config.persistLogs (Config.assign (config st) opts)) eqn:Ep.
  - unfold Legacy.restoreLogs, Legacy.log; cbn [Legacy.core Legacy.log_slot].
    eexists; split; [reflexivity |]; cbn [Legacy.log_slot Legacy.core].
    match goal with |- context [restoreLogs ?x] =>
      destruct (restoreLogs_frame x) as (_ & _ & _ & _ & Hf & _ & _ & Hp);
      rewrite Hf, Hp, (restoreLogs_printed x) end.
    cbn; repeat split; discriminate.
  - unfold Legacy.log; cbn [Legacy.core Legacy.log_slot].
    eexists; split; [reflexivity |]; cbn; repeat split.
Qed.



